(** * tfx.dsl.control_flow.for_each_internal

    A shallow embedding of [for_each_internal.py]: the [ForEachContext]
    scope marker with its identity based equality and its [validate]
    check, and the [Loopable] wrapper around a loop variable factory.

    Python objects with identity live in a heap indexed by their [id];
    methods are computations in a state and exception monad over that
    heap, so that "raises", "returns" and "leaves the state alone" are
    all statements about one run. *)

From stdpp Require Import base option list strings gmap fin_maps infinite.
From Stdlib Require Import ZArith Lia.

Set Warnings "-register-all".

Local Open Scope string_scope.
Local Open Scope Z_scope.

(** ** Python runtime: exceptions and outcomes *)

(** The exception classes raised in this module. *)
Inductive exc_class :=
  | ValueError
  | NotImplementedError
  | RuntimeError
  | TypeError.

(** One piece of an f-string: literal text, or an interpolated [{v}]
    kept symbolic (its rendering is [format(v, '')], which for functions
    and plain objects prints a memory address). *)
Inductive fpart (V : Type) :=
  | Lit (s : string)
  | Interp (v : V).
Arguments Lit {V} s.
Arguments Interp {V} v.

(** An exception instance: its class and its single message argument. *)
Record exn (V : Type) := Exn { exn_class : exc_class; exn_msg : list (fpart V) }.
Arguments Exn {V} _ _.
Arguments exn_class {V} _.
Arguments exn_msg {V} _.

(** How a call ends: it returns a value or it raises. *)
Inductive outcome (V A : Type) :=
  | Returns (a : A)
  | Raises (e : exn V).
Arguments Returns {V A} a.
Arguments Raises {V A} e.

(** ** tfx.types.channel *)

Module channel_types.

(** Modelled from the spec: [BaseChannel], the external abstraction of a
    typed data link between pipeline nodes; this module only tests values
    for being one and stores one in [wrapped_channel]. *)
Record BaseChannel := { type_name : string; producer : string }.

End channel_types.

(** ** Heap of DSL context objects *)

(** [id(obj)]: the address of a live object. *)
Abbreviation obj_ref := Z (only parsing).

(** A context object: its class, given as its method resolution order
    (own class first), and the [attr.s] field of [ForEachContext]. *)
Record dsl_object := {
  obj_mro : list string;
  wrapped_channel : option channel_types.BaseChannel
}.

(** The interpreter state this module reads: the live context objects and
    the context registry that knows each context's enclosing contexts. *)
Record state := {
  heap : gmap Z dsl_object;
  registry : gmap Z (list Z)
}.

(** ** Python values *)

(** The values that reach [Loopable]: [Any] in the source.  A callable is
    its behaviour when applied to one [ForEachContext]. *)
Inductive value :=
  | VNone
  | VInt (n : Z)
  | VStr (s : string)
  | VChannel (c : channel_types.BaseChannel)
  | VDict (items : list (value * value))
  | VObject (r : obj_ref)
  | VCallable (f : obj_ref -> state -> outcome value value * state).

Abbreviation py_exn := (exn value).

(** ** The state and exception monad *)

Definition M (A : Type) : Type := state -> outcome value A * state.

Definition ret {A} (a : A) : M A := fun st => (Returns a, st).

Definition bind {A B} (m : M A) (k : A -> M B) : M B :=
  fun st =>
    match m st with
    | (Returns a, st') => k a st'
    | (Raises e, st') => (Raises e, st')
    end.

Definition raise {A} (e : py_exn) : M A := fun st => (Raises e, st).

Definition get_state : M state := fun st => (Returns st, st).

Definition put_state (st' : state) : M unit := fun _ => (Returns tt, st').

Declare Scope py_scope.
Delimit Scope py_scope with py.
Notation "x <- m ;; k" := (bind m (fun x => k))
  (at level 100, m at next level, right associativity) : py_scope.
Notation "m ;;; k" := (bind m (fun _ => k))
  (at level 100, right associativity) : py_scope.
Local Open Scope py_scope.

(** ** Builtins *)

(** [id(obj)]. *)
Definition id (o : obj_ref) : Z := o.

(** [other is self], for [self] a heap object: only a reference to the
    object at the same address is the same object. *)
Definition is_ (other : value) (self : obj_ref) : bool :=
  match other with
  | VObject r => bool_decide (id r = id self)
  | _ => false
  end.

(** [len(xs)]. *)
Definition len {A} (xs : list A) : Z := Z.of_nat (length xs).

(** [hash(n)] for an [int] (CPython, 64 bit): reduction modulo the
    Mersenne prime 2^61 - 1 keeping the sign, and -1 is never a hash. *)
Definition _PyHASH_MODULUS : Z := 2 ^ 61 - 1.

Definition hash (n : Z) : Z :=
  let h := Z.sgn n * (Z.abs n mod _PyHASH_MODULUS) in
  if h =? -1 then -2 else h.

(** [callable(x)]. *)
Definition callable (x : value) : bool :=
  match x with
  | VCallable _ => true
  | _ => false
  end.

(** [f(arg)]: applying a value to one argument. *)
Definition call (x : value) (arg : obj_ref) : M value :=
  match x with
  | VCallable f => f arg
  | _ => raise (Exn TypeError [Interp x; Lit " object is not callable"])
  end.

(** [isinstance(o, cls)] for a heap object: [cls] is in its MRO.  A
    reference always points to a live object; an address with no object
    behind it is an instance of nothing. *)
Definition isinstance (o : obj_ref) (cls : string) : M bool :=
  st <- get_state ;;
  ret (match heap st !! o with
       | Some ob => bool_decide (cls ∈ obj_mro ob)
       | None => false
       end).

(** ** tfx.dsl.context_managers.dsl_context *)

Module dsl_context.

Definition DslContext : string := "DslContext".

(** Modelled from the spec: the [ancestors] property of [DslContext],
    the sequence of enclosing contexts supplied by the context stack
    collaborator; a context the registry does not know has none. *)
Definition ancestors (self : obj_ref) : M (list obj_ref) :=
  st <- get_state ;;
  ret (default [] (registry st !! self)).

End dsl_context.

(** ** tfx.utils.typing_utils *)

Module typing_utils.

(** The type hints this module builds. *)
Inductive type_hint :=
  | TBaseChannel
  | TStr
  | TDict (k v : type_hint)
  | TUnion (ts : list type_hint).

(** Modelled from the spec: [is_compatible], the runtime shape check of
    a value against a type hint: a channel-like object for [BaseChannel],
    a string for [str], a mapping whose keys and values all fit for
    [Dict], and one of the alternatives for [Union]. *)
Fixpoint is_compatible (v : value) (tp : type_hint) : bool :=
  match tp with
  | TBaseChannel => match v with VChannel _ => true | _ => false end
  | TStr => match v with VStr _ => true | _ => false end
  | TDict kt vt =>
      match v with
      | VDict items =>
          forallb (fun kv => is_compatible (fst kv) kt && is_compatible (snd kv) vt)
                  items
      | _ => false
      end
  | TUnion ts => existsb (is_compatible v) ts
  end.

End typing_utils.

(** ** for_each_internal *)

Definition Any : Type := value.

(** Avoid cyclic dependency *)
Definition _BaseNode : Type := Any.

Module ForEachContext.

Definition __name__ : string := "ForEachContext".

(** [class ForEachContext(dsl_context.DslContext)]. *)
Definition __mro__ : list string :=
  [__name__; dsl_context.DslContext; "object"].

(** The [attr.s(kw_only=True)] constructor: a new object at an address
    no live object has, with [wrapped_channel] ([None] by default). *)
Definition __init__ (wrapped_channel : option channel_types.BaseChannel)
  : M obj_ref :=
  st <- get_state ;;
  let self := fresh (dom (heap st)) in
  put_state {| heap := <[self := {| obj_mro := __mro__;
                                    wrapped_channel := wrapped_channel |}]>
                         (heap st);
               registry := registry st |} ;;;
  ret self.

Definition __hash__ (self : obj_ref) : M Z :=
  ret (hash (id self)).

Definition __eq__ (self : obj_ref) (other : Any) : M bool :=
  ret (is_ other self).

(** The loop [for parent in self.ancestors: ...] of [validate]. *)
Fixpoint for_parent_in (parents : list obj_ref) : M unit :=
  match parents with
  | [] => ret tt
  | parent :: rest =>
      b <- isinstance parent __name__ ;;
      if b then
        raise (Exn NotImplementedError
                   [Lit "Nested ForEach block is not supported yet."])
      else for_parent_in rest
  end.

Definition validate (self : obj_ref) (containing_nodes : list _BaseNode)
  : M unit :=
  parents <- dsl_context.ancestors self ;;
  for_parent_in parents ;;;
  if 1 <? len containing_nodes then
    raise (Exn NotImplementedError
               [Lit "Cannot define more than one component within ForEach yet."])
  else ret tt.

End ForEachContext.

Definition _ChannelDict : typing_utils.type_hint :=
  typing_utils.TDict typing_utils.TStr typing_utils.TBaseChannel.

Definition LoopVar : typing_utils.type_hint :=
  typing_utils.TUnion [typing_utils.TBaseChannel; _ChannelDict].

Module Loopable.

(** A [Loopable] instance: its one attribute. *)
Record t := { _loop_var_factory : value }.

Definition __init__ (loop_var_factory : value) : M t :=
  if negb (callable loop_var_factory) then
    raise (Exn ValueError [Interp loop_var_factory; Lit " is not callable."])
  else ret {| _loop_var_factory := loop_var_factory |}.

Definition get_loop_var (self : t) (context : obj_ref) : M value :=
  result <- call (_loop_var_factory self) context ;;
  if negb (typing_utils.is_compatible result LoopVar) then
    raise (Exn ValueError
               [Lit "ForEach got non-loopable instance "; Interp result])
  else ret result.

Definition __getitem__ (self : t) (unused_args : list value) : M value :=
  raise (Exn RuntimeError
             [Lit "Cannot use loopable value directly. Please use ForEach to wrap it."]).

End Loopable.

(** ** Vocabulary of the specification *)

(** The error kinds of the specification, as the exceptions of the code. *)
Definition NestedLoopUnsupported : py_exn :=
  Exn NotImplementedError [Lit "Nested ForEach block is not supported yet."].

Definition MultipleNodesUnsupported : py_exn :=
  Exn NotImplementedError
      [Lit "Cannot define more than one component within ForEach yet."].

Definition NonCallableFactory (x : value) : py_exn :=
  Exn ValueError [Interp x; Lit " is not callable."].

Definition NonLoopableResult (result : value) : py_exn :=
  Exn ValueError [Lit "ForEach got non-loopable instance "; Interp result].

Definition DirectUsageForbidden : py_exn :=
  Exn RuntimeError
      [Lit "Cannot use loopable value directly. Please use ForEach to wrap it."].

(** [o] is a LoopContext in [st]: [isinstance(o, ForEachContext)] holds. *)
Definition is_loop_context (st : state) (o : obj_ref) : Prop :=
  isinstance o ForEachContext.__name__ st = (Returns true, st).

(** [ps] is the ancestor chain the collaborator supplies for [self]. *)
Definition ancestor_chain (st : state) (self : obj_ref) (ps : list obj_ref) : Prop :=
  dsl_context.ancestors self st = (Returns ps, st).

(** Some LoopContext encloses [self]. *)
Definition nested_in_loop (st : state) (self : obj_ref) : Prop :=
  exists ps p, ancestor_chain st self ps /\ p ∈ ps /\ is_loop_context st p.

(** No LoopContext encloses [self]. *)
Definition not_nested (st : state) (self : obj_ref) : Prop :=
  exists ps, ancestor_chain st self ps /\ forall p, p ∈ ps -> ~ is_loop_context st p.

(** A computation that only reads the state. *)
Definition read_only {A} (m : M A) : Prop :=
  forall st, snd (m st) = st.

(** ** Example states *)

Definition loop_object (wc : option channel_types.BaseChannel) : dsl_object :=
  {| obj_mro := ForEachContext.__mro__; wrapped_channel := wc |}.

Definition cond_object : dsl_object :=
  {| obj_mro := ["CondContext"; dsl_context.DslContext; "object"];
     wrapped_channel := None |}.

(** Context 1 is a ForEach block at top level, context 2 a ForEach block
    declared inside it, context 4 a ForEach block inside the Cond block 3. *)
Definition demo_state : state :=
  {| heap := {[ 1 := loop_object None; 2 := loop_object None;
                3 := cond_object; 4 := loop_object None ]};
     registry := {[ 2 := [1]; 4 := [3] ]} |}.

Definition some_channel : channel_types.BaseChannel :=
  {| channel_types.type_name := "Examples"; channel_types.producer := "gen" |}.

Definition node_N : _BaseNode := VObject 10.
Definition node_M : _BaseNode := VObject 11.

(** The contexts of [demo_state] once every ForEach block has been given
    a channel to iterate over. *)
Definition demo_state_wrapped : state :=
  {| heap := {[ 1 := loop_object (Some some_channel);
                2 := loop_object (Some some_channel);
                3 := cond_object;
                4 := loop_object (Some some_channel) ]};
     registry := registry demo_state |}.

(** The contexts of [demo_state] with the registry listing the enclosing
    contexts of 2 and of 4 with repetitions. *)
Definition demo_state_repeated : state :=
  {| heap := heap demo_state;
     registry := {[ 2 := [1; 1]; 4 := [3; 3; 3] ]} |}.

(** A factory that fails: [lambda ctx: ctx.missing]-like. *)
Definition failing_factory : obj_ref -> M value :=
  fun _ => raise (Exn TypeError [Lit "factory failed"]).

(** A factory with an effect: each call opens a new scope object, and the
    first call from [demo_state] answers with a channel, later ones with
    an empty dictionary. *)
Definition counting_factory : obj_ref -> M value :=
  fun _ =>
    st <- get_state ;;
    ForEachContext.__init__ None ;;;
    ret (if bool_decide (5 ∈ dom (heap st)) then VDict []
         else VChannel some_channel).

(** ** The monad: running and framing *)

Lemma bind_returns {A B} (m : M A) (k : A -> M B) st a st' :
  m st = (Returns a, st') -> bind m k st = k a st'.
Proof. unfold bind. intros ->. reflexivity. Qed.

Lemma bind_raises {A B} (m : M A) (k : A -> M B) st e st' :
  m st = (Raises e, st') -> bind m k st = (Raises e, st').
Proof. unfold bind. intros ->. reflexivity. Qed.

Lemma read_only_ret {A} (a : A) : read_only (ret a).
Proof. intros st. reflexivity. Qed.

Lemma read_only_raise {A} (e : py_exn) : read_only (@raise A e).
Proof. intros st. reflexivity. Qed.

Lemma read_only_get_state : read_only get_state.
Proof. intros st. reflexivity. Qed.

Lemma read_only_bind {A B} (m : M A) (k : A -> M B) :
  read_only m -> (forall a, read_only (k a)) -> read_only (bind m k).
Proof.
  intros Hm Hk st. unfold bind.
  specialize (Hm st). destruct (m st) as [[a | e] st1]; simpl in Hm; subst st1.
  - apply Hk.
  - reflexivity.
Qed.

Lemma read_only_if {A} (b : bool) (m1 m2 : M A) :
  read_only m1 -> read_only m2 -> read_only (if b then m1 else m2).
Proof. destruct b; trivial. Qed.

Create HintDb frame.
#[local] Hint Resolve read_only_ret read_only_raise read_only_get_state
  read_only_bind read_only_if : frame.

Lemma read_only_isinstance o cls : read_only (isinstance o cls).
Proof. unfold isinstance. auto with frame. Qed.

Lemma read_only_ancestors self : read_only (dsl_context.ancestors self).
Proof. unfold dsl_context.ancestors. auto with frame. Qed.

#[local] Hint Resolve read_only_isinstance read_only_ancestors : frame.

(** ** ForEachContext.validate *)

(** [isinstance] always answers, with a boolean that decides
    [is_loop_context]. *)
Lemma isinstance_run o cls st :
  exists b, isinstance o cls st = (Returns b, st).
Proof. unfold isinstance, bind, get_state, ret. eauto. Qed.

Lemma ancestor_chain_unique st self ps qs :
  ancestor_chain st self ps -> ancestor_chain st self qs -> ps = qs.
Proof. unfold ancestor_chain. intros -> [=]. assumption. Qed.

(** The loop stops with the nesting error at the first enclosing
    LoopContext. *)
Lemma for_parent_in_nested st ps :
  (exists p, p ∈ ps /\ is_loop_context st p) ->
  ForEachContext.for_parent_in ps st = (Raises NestedLoopUnsupported, st).
Proof.
  induction ps as [| q rest IH]; intros (p & Hin & Hp).
  - inversion Hin.
  - cbn [ForEachContext.for_parent_in].
    destruct (isinstance_run q ForEachContext.__name__ st) as [[|] Hq].
    + rewrite (bind_returns _ _ _ _ _ Hq). reflexivity.
    + rewrite (bind_returns _ _ _ _ _ Hq).
      apply IH. exists p. split; [| assumption].
      apply elem_of_cons in Hin as [-> | Hin]; [| assumption].
      unfold is_loop_context in Hp. congruence.
Qed.

(** The loop runs to its end when no enclosing context is a LoopContext. *)
Lemma for_parent_in_clear st ps :
  (forall p, p ∈ ps -> ~ is_loop_context st p) ->
  ForEachContext.for_parent_in ps st = (Returns tt, st).
Proof.
  induction ps as [| q rest IH]; intros Hall.
  - reflexivity.
  - cbn [ForEachContext.for_parent_in].
    destruct (isinstance_run q ForEachContext.__name__ st) as [[|] Hq].
    + exfalso. apply (Hall q); [left | exact Hq].
    + rewrite (bind_returns _ _ _ _ _ Hq).
      apply IH. intros p Hp. apply Hall. right. exact Hp.
Qed.

Lemma read_only_for_parent_in ps : read_only (ForEachContext.for_parent_in ps).
Proof.
  induction ps as [| q rest IH]; cbn [ForEachContext.for_parent_in];
    auto with frame.
Qed.

#[local] Hint Resolve read_only_for_parent_in : frame.

Lemma read_only_validate self nodes :
  read_only (ForEachContext.validate self nodes).
Proof. unfold ForEachContext.validate. auto with frame. Qed.

(** The two situations of a context exclude each other. *)
Lemma not_nested_excludes_nested st self :
  not_nested st self -> ~ nested_in_loop st self.
Proof.
  intros (ps & Hps & Hall) (qs & p & Hqs & Hin & Hp).
  rewrite (ancestor_chain_unique _ _ _ _ Hqs Hps) in Hin.
  exact (Hall p Hin Hp).
Qed.

(** The nesting check comes first: under a LoopContext the node list is
    never looked at. *)
Lemma validate_nested st self nodes :
  nested_in_loop st self ->
  ForEachContext.validate self nodes st = (Raises NestedLoopUnsupported, st).
Proof.
  intros (ps & p & Hps & Hin & Hp). unfold ForEachContext.validate.
  rewrite (bind_returns _ _ _ _ _ Hps).
  apply bind_raises. apply for_parent_in_nested. eauto.
Qed.

(** Outside every LoopContext the outcome is decided by the node count. *)
Lemma validate_not_nested st self nodes :
  not_nested st self ->
  ForEachContext.validate self nodes st =
    (if 1 <? len nodes then Raises MultipleNodesUnsupported else Returns tt, st).
Proof.
  intros (ps & Hps & Hall). unfold ForEachContext.validate.
  rewrite (bind_returns _ _ _ _ _ Hps).
  rewrite (bind_returns _ _ _ _ _ (for_parent_in_clear _ _ Hall)).
  destruct (1 <? len nodes); reflexivity.
Qed.

(** C1: on a context whose ancestor chain contains a LoopContext (in
    particular another one), [validate] raises the nested-loop error for
    every non-empty [containing_nodes], and leaves the state as it was. *)
Theorem validate_nested_nonempty_raises
    (st : state) (self : obj_ref) (containing_nodes : list _BaseNode) :
  nested_in_loop st self ->
  containing_nodes <> [] ->
  ForEachContext.validate self containing_nodes st
  = (Raises NestedLoopUnsupported, st).
Proof. intros Hnest _. apply validate_nested. exact Hnest. Qed.

Lemma validate_nested_nonempty_raises_witness :
  nested_in_loop demo_state 2 /\ [node_M] <> [] /\
  ForEachContext.validate 2 [node_M] demo_state
  = (Raises NestedLoopUnsupported, demo_state).
Proof.
  assert (H1 : nested_in_loop demo_state 2).
  { exists [1], 1. split; [reflexivity |]. split; [left | reflexivity]. }
  assert (H2 : [node_M] <> []) by discriminate.
  split; [exact H1 |]. split; [exact H2 |].
  exact (validate_nested_nonempty_raises demo_state 2 [node_M] H1 H2).
Defined.

(** C2: on a context with no LoopContext in its ancestor chain,
    [validate] raises the multiplicity error whenever [containing_nodes]
    has more than one element. *)
Theorem validate_many_nodes_raises
    (st : state) (self : obj_ref) (containing_nodes : list _BaseNode) :
  not_nested st self ->
  1 < len containing_nodes ->
  ForEachContext.validate self containing_nodes st
  = (Raises MultipleNodesUnsupported, st).
Proof.
  intros Hclear Hlen. rewrite (validate_not_nested _ _ _ Hclear).
  apply Z.ltb_lt in Hlen. rewrite Hlen. reflexivity.
Qed.

Lemma validate_many_nodes_raises_witness :
  not_nested demo_state 4 /\ 1 < len [node_M; node_N] /\
  ForEachContext.validate 4 [node_M; node_N] demo_state
  = (Raises MultipleNodesUnsupported, demo_state).
Proof.
  assert (H1 : not_nested demo_state 4).
  { exists [3]. split; [reflexivity |].
    intros p Hp. apply list_elem_of_singleton in Hp as ->. discriminate. }
  assert (H2 : 1 < len [node_M; node_N]) by reflexivity.
  split; [exact H1 |]. split; [exact H2 |].
  exact (validate_many_nodes_raises demo_state 4 [node_M; node_N] H1 H2).
Defined.

(** C3: on a context with no LoopContext in its ancestor chain,
    [validate] returns normally when [containing_nodes] has no element
    or exactly one. *)
Theorem validate_at_most_one_node_returns
    (st : state) (self : obj_ref) (containing_nodes : list _BaseNode) :
  not_nested st self ->
  len containing_nodes = 0 \/ len containing_nodes = 1 ->
  ForEachContext.validate self containing_nodes st = (Returns tt, st).
Proof.
  intros Hclear Hlen. rewrite (validate_not_nested _ _ _ Hclear).
  replace (1 <? len containing_nodes) with false; [reflexivity |].
  symmetry. apply Z.ltb_ge. lia.
Qed.

Lemma validate_at_most_one_node_returns_witness :
  not_nested demo_state 1 /\ (len [node_N] = 0 \/ len [node_N] = 1) /\
  ForEachContext.validate 1 [node_N] demo_state = (Returns tt, demo_state).
Proof.
  assert (H1 : not_nested demo_state 1).
  { exists []. split; [reflexivity |]. intros p Hp. inversion Hp. }
  assert (H2 : len [node_N] = 0 \/ len [node_N] = 1) by (right; reflexivity).
  split; [exact H1 |]. split; [exact H2 |].
  exact (validate_at_most_one_node_returns demo_state 1 [node_N] H1 H2).
Defined.

(** C9: [validate] is a pure check.  Whether it raises or returns, the
    state it leaves is the state it started from, so the context's
    [wrapped_channel] and its ancestor chain are what they were, and a
    second call with the same arguments ends as the first did. *)
Theorem validate_pure_and_idempotent
    (st : state) (self : obj_ref) (containing_nodes : list _BaseNode) :
  let run := ForEachContext.validate self containing_nodes st in
  snd run = st
  /\ wrapped_channel <$> heap (snd run) !! self
     = wrapped_channel <$> heap st !! self
  /\ (forall ps, ancestor_chain st self ps -> ancestor_chain (snd run) self ps)
  /\ ForEachContext.validate self containing_nodes (snd run) = run.
Proof.
  intros run. subst run.
  pose proof (read_only_validate self containing_nodes st) as Hst.
  rewrite Hst. repeat split; trivial.
Qed.

(** C10: the nesting check runs before the multiplicity check.  Under a
    LoopContext [validate] raises the nested-loop error for every
    [containing_nodes], the empty sequence and sequences of several nodes
    included, and that error is not the multiplicity error. *)
Theorem validate_nesting_checked_first (st : state) (self : obj_ref) :
  nested_in_loop st self ->
  (forall containing_nodes : list _BaseNode,
     ForEachContext.validate self containing_nodes st
     = (Raises NestedLoopUnsupported, st))
  /\ ForEachContext.validate self [] st = (Raises NestedLoopUnsupported, st)
  /\ (forall (n1 n2 : _BaseNode) (more : list _BaseNode),
        ForEachContext.validate self (n1 :: n2 :: more) st
        <> (Raises MultipleNodesUnsupported, st))
  /\ NestedLoopUnsupported <> MultipleNodesUnsupported.
Proof.
  intros Hnest.
  assert (Hne : NestedLoopUnsupported <> MultipleNodesUnsupported)
    by discriminate.
  repeat split.
  - intros nodes. apply validate_nested. exact Hnest.
  - apply validate_nested. exact Hnest.
  - intros n1 n2 more. rewrite (validate_nested _ _ _ Hnest).
    intros Heq. discriminate Heq.
  - exact Hne.
Qed.

Lemma validate_nesting_checked_first_witness :
  nested_in_loop demo_state 2 /\
  ForEachContext.validate 2 [node_M; node_N] demo_state
  = (Raises NestedLoopUnsupported, demo_state).
Proof.
  assert (H1 : nested_in_loop demo_state 2).
  { exists [1], 1. split; [reflexivity |]. split; [left | reflexivity]. }
  split; [exact H1 |].
  exact (proj1 (validate_nesting_checked_first demo_state 2 H1) [node_M; node_N]).
Defined.

(** ** Loopable *)

(** What the shape check against [LoopVar] accepts: a channel, or a
    dictionary whose keys are strings and whose values are channels. *)
Lemma is_compatible_LoopVar (v : value) :
  typing_utils.is_compatible v LoopVar = true <->
  (exists c, v = VChannel c) \/
  (exists items, v = VDict items /\
     forall k x, (k, x) ∈ items ->
       (exists s, k = VStr s) /\ (exists c, x = VChannel c)).
Proof.
  unfold LoopVar, _ChannelDict. cbn [typing_utils.is_compatible existsb].
  rewrite orb_false_r, orb_true_iff. split.
  - intros [H | H].
    + left. destruct v; try discriminate. eauto.
    + right. destruct v as [| | | | items | |]; try discriminate.
      exists items. split; [reflexivity |]. intros k x Hin.
      rewrite forallb_forall in H. apply list_elem_of_In in Hin.
      specialize (H _ Hin). cbn in H. apply andb_true_iff in H as [Hk Hx].
      split; [destruct k | destruct x]; try discriminate; eauto.
  - intros [[c ->] | (items & -> & H)]; [left; reflexivity | right].
    apply forallb_forall. intros [k x] Hin. apply list_elem_of_In in Hin.
    destruct (H k x Hin) as [[s ->] [c ->]]. reflexivity.
Qed.

Lemma Loopable_init_callable f st :
  Loopable.__init__ (VCallable f) st
  = (Returns {| Loopable._loop_var_factory := VCallable f |}, st).
Proof. reflexivity. Qed.

(** C4: when the factory, applied to the context, returns a value that
    passes the shape check against [LoopVar], [Loopable(f).get_loop_var(ctx)]
    returns that very value, in the state the factory left. *)
Theorem get_loop_var_returns_result
    (f : obj_ref -> M value) (ctx : obj_ref) (st st' : state) (result : value) :
  f ctx st = (Returns result, st') ->
  typing_utils.is_compatible result LoopVar = true ->
  (self <- Loopable.__init__ (VCallable f) ;; Loopable.get_loop_var self ctx) st
  = (Returns result, st').
Proof.
  intros Hf Hok.
  rewrite (bind_returns _ _ _ _ _ (Loopable_init_callable f st)).
  unfold Loopable.get_loop_var. cbn [Loopable._loop_var_factory call].
  rewrite (bind_returns _ _ _ _ _ Hf). rewrite Hok. reflexivity.
Qed.

Lemma get_loop_var_returns_result_witness :
  (self <- Loopable.__init__ (VCallable (fun _ => ret (VChannel some_channel))) ;;
   Loopable.get_loop_var self 1) demo_state
  = (Returns (VChannel some_channel), demo_state).
Proof.
  apply (get_loop_var_returns_result
           (fun _ => ret (VChannel some_channel)) 1 demo_state demo_state
           (VChannel some_channel)); reflexivity.
Defined.

(** C5: when the value the factory returns fails the shape check against
    [LoopVar], [Loopable(f).get_loop_var(ctx)] raises the non-loopable
    result error, which carries that value. *)
Theorem get_loop_var_rejects_result
    (f : obj_ref -> M value) (ctx : obj_ref) (st st' : state) (result : value) :
  f ctx st = (Returns result, st') ->
  typing_utils.is_compatible result LoopVar = false ->
  (self <- Loopable.__init__ (VCallable f) ;; Loopable.get_loop_var self ctx) st
  = (Raises (NonLoopableResult result), st').
Proof.
  intros Hf Hbad.
  rewrite (bind_returns _ _ _ _ _ (Loopable_init_callable f st)).
  unfold Loopable.get_loop_var. cbn [Loopable._loop_var_factory call].
  rewrite (bind_returns _ _ _ _ _ Hf). rewrite Hbad. reflexivity.
Qed.

Lemma get_loop_var_rejects_result_witness :
  (self <- Loopable.__init__ (VCallable (fun _ => ret (VStr "not a channel"))) ;;
   Loopable.get_loop_var self 1) demo_state
  = (Raises (NonLoopableResult (VStr "not a channel")), demo_state).
Proof.
  apply (get_loop_var_rejects_result
           (fun _ => ret (VStr "not a channel")) 1 demo_state demo_state
           (VStr "not a channel")); reflexivity.
Defined.

(** C6: constructing [Loopable(x)] raises the not-callable error exactly
    when [x] is not invocable; when [x] is invocable the construction
    succeeds and the instance stores [x] as its factory.  The state is
    untouched either way. *)
Theorem Loopable_init_callable_iff (x : value) (st : state) :
  (Loopable.__init__ x st = (Raises (NonCallableFactory x), st)
   <-> callable x = false)
  /\ ((exists e st', Loopable.__init__ x st = (Raises e, st'))
      <-> callable x = false)
  /\ (Loopable.__init__ x st
      = (Returns {| Loopable._loop_var_factory := x |}, st)
      <-> callable x = true).
Proof.
  unfold Loopable.__init__, NonCallableFactory.
  destruct (callable x); cbn [negb]; unfold raise, ret; repeat split;
    try (intros; discriminate); try reflexivity.
  - intros (e & st' & H). discriminate H.
  - intros _. eauto.
Qed.

(** C7: item access on a [Loopable] raises the direct-usage error whatever
    the instance and whatever the arguments; it never returns. *)
Theorem Loopable_getitem_always_raises
    (self : Loopable.t) (unused_args : list value) (st : state) :
  Loopable.__getitem__ self unused_args st = (Raises DirectUsageForbidden, st)
  /\ ~ (exists v st', Loopable.__getitem__ self unused_args st = (Returns v, st')).
Proof.
  split; [reflexivity |]. intros (v & st' & H). discriminate H.
Qed.

(** ** ForEachContext: identity *)

Lemma ForEachContext_init_run wc st :
  ForEachContext.__init__ wc st
  = (Returns (fresh (dom (heap st))),
     {| heap := <[fresh (dom (heap st)) := loop_object wc]> (heap st);
        registry := registry st |}).
Proof. reflexivity. Qed.

Lemma eq_run a b st :
  ForEachContext.__eq__ a (VObject b) st = (Returns (bool_decide (a = b)), st).
Proof.
  unfold ForEachContext.__eq__, ret, is_, id.
  do 2 f_equal. apply bool_decide_ext. split; congruence.
Qed.

(** C8: equality of LoopContexts is identity.  [a == b] is true exactly
    when [a] and [b] are the same object; two live instances at different
    addresses are unequal even when their contents agree, as are two
    instances constructed one after the other with the same
    [wrapped_channel]; the hash is [hash(id(self))], so it does not
    depend on the state and equal contexts have equal hashes. *)
Theorem ForEachContext_identity_semantics :
  (forall a b st,
     ForEachContext.__eq__ a (VObject b) st = (Returns true, st) <-> a = b)
  /\ (forall a b st,
        ForEachContext.__eq__ a (VObject b) st = (Returns false, st) <-> a <> b)
  /\ (forall a b st o,
        heap st !! a = Some o -> heap st !! b = Some o -> a <> b ->
        ForEachContext.__eq__ a (VObject b) st = (Returns false, st))
  /\ (forall wc st, exists a b st1 st2,
        ForEachContext.__init__ wc st = (Returns a, st1)
        /\ ForEachContext.__init__ wc st1 = (Returns b, st2)
        /\ heap st2 !! a = Some (loop_object wc)
        /\ heap st2 !! b = Some (loop_object wc)
        /\ a <> b
        /\ ForEachContext.__eq__ a (VObject b) st2 = (Returns false, st2)
        /\ ForEachContext.__eq__ b (VObject a) st2 = (Returns false, st2))
  /\ (forall a st,
        ForEachContext.__hash__ a st = (Returns (hash (id a)), st))
  /\ (forall a st st',
        fst (ForEachContext.__hash__ a st) = fst (ForEachContext.__hash__ a st'))
  /\ (forall a b st,
        ForEachContext.__eq__ a (VObject b) st = (Returns true, st) ->
        ForEachContext.__hash__ a st = ForEachContext.__hash__ b st).
Proof.
  assert (Heq : forall a b st,
     ForEachContext.__eq__ a (VObject b) st = (Returns true, st) <-> a = b).
  { intros a b st. rewrite eq_run. split.
    - intros [= H]. apply bool_decide_eq_true in H. exact H.
    - intros ->. rewrite bool_decide_eq_true_2; reflexivity. }
  assert (Hne : forall a b st,
     ForEachContext.__eq__ a (VObject b) st = (Returns false, st) <-> a <> b).
  { intros a b st. rewrite eq_run. split.
    - intros [= H]. apply bool_decide_eq_false in H. exact H.
    - intros H. rewrite bool_decide_eq_false_2; [reflexivity | exact H]. }
  split; [exact Heq |]. split; [exact Hne |].
  split; [| split; [| split; [| split]]].
  - intros a b st o _ _ Hab. apply Hne. exact Hab.
  - intros wc st.
    set (a := fresh (dom (heap st))).
    set (h1 := <[a := loop_object wc]> (heap st)).
    set (b := fresh (dom h1)).
    assert (Hab : a <> b).
    { intros E. apply (is_fresh (dom h1)). fold b. rewrite <- E.
      unfold h1. rewrite dom_insert_L.
      apply elem_of_union_l, elem_of_singleton. reflexivity. }
    exists a, b, {| heap := h1; registry := registry st |},
      {| heap := <[b := loop_object wc]> h1; registry := registry st |}.
    split; [exact (ForEachContext_init_run wc st) |].
    split;
      [exact (ForEachContext_init_run wc {| heap := h1; registry := registry st |}) |].
    cbn [heap]. split.
    { rewrite lookup_insert_ne by congruence. unfold h1. apply lookup_insert_eq. }
    split; [apply lookup_insert_eq |].
    split; [exact Hab |].
    split; apply Hne; congruence.
  - reflexivity.
  - reflexivity.
  - intros a b st H. apply Heq in H. subst b. reflexivity.
Qed.

(** ** ForEachContext.validate: the whole outcome *)

(** What [isinstance(o, ForEachContext)] reads: the class of the object. *)
Lemma is_loop_context_heap st o :
  is_loop_context st o <->
  exists ob, heap st !! o = Some ob /\ ForEachContext.__name__ ∈ obj_mro ob.
Proof.
  unfold is_loop_context, isinstance, bind, get_state, ret. split.
  - intros [= H]. destruct (heap st !! o) as [ob |]; [| discriminate].
    exists ob. split; [reflexivity |]. apply bool_decide_eq_true in H. exact H.
  - intros (ob & -> & Hin). rewrite bool_decide_eq_true_2; [reflexivity | exact Hin].
Qed.

Lemma ancestor_chain_registry st self :
  ancestor_chain st self (default [] (registry st !! self)).
Proof. reflexivity. Qed.

(** Along a chain, either some context is a LoopContext or none is. *)
Lemma chain_nested_or_clear st (ps : list Z) :
  (exists p, p ∈ ps /\ is_loop_context st p)
  \/ (forall p, p ∈ ps -> ~ is_loop_context st p).
Proof.
  induction ps as [| q rest [(p & Hin & Hp) | Hall]].
  - right. intros p Hp. inversion Hp.
  - left. exists p. split; [right; exact Hin | exact Hp].
  - destruct (isinstance_run q ForEachContext.__name__ st) as [[|] Hq].
    + left. exists q. split; [left | exact Hq].
    + right. intros p Hp. apply elem_of_cons in Hp as [-> | Hp].
      * unfold is_loop_context. rewrite Hq. discriminate.
      * apply Hall. exact Hp.
Qed.

Lemma nested_or_not_nested st self :
  nested_in_loop st self \/ not_nested st self.
Proof.
  pose proof (ancestor_chain_registry st self) as Hps.
  destruct (chain_nested_or_clear st (default [] (registry st !! self)))
    as [(p & Hin & Hp) | Hall].
  - left. exists (default [] (registry st !! self)), p. auto.
  - right. exists (default [] (registry st !! self)). auto.
Qed.

(** The three ways [validate] can end. *)
Lemma validate_cases st self (nodes : list _BaseNode) :
  (nested_in_loop st self /\
   ForEachContext.validate self nodes st = (Raises NestedLoopUnsupported, st))
  \/ (not_nested st self /\ 1 < len nodes /\
      ForEachContext.validate self nodes st = (Raises MultipleNodesUnsupported, st))
  \/ (not_nested st self /\ len nodes <= 1 /\
      ForEachContext.validate self nodes st = (Returns tt, st)).
Proof.
  destruct (nested_or_not_nested st self) as [Hn | Hc].
  - left. split; [exact Hn | apply validate_nested; exact Hn].
  - right. rewrite (validate_not_nested _ _ _ Hc).
    destruct (1 <? len nodes) eqn:E.
    + left. apply Z.ltb_lt in E. auto.
    + right. apply Z.ltb_ge in E. auto.
Qed.

(** X1: [validate] returns normally exactly when no enclosing context is
    a LoopContext and the block declares at most one node. *)
Theorem validate_returns_iff (st : state) (self : obj_ref) (nodes : list _BaseNode) :
  fst (ForEachContext.validate self nodes st) = Returns tt
  <-> not_nested st self /\ len nodes <= 1.
Proof.
  destruct (validate_cases st self nodes)
    as [[Hn H] | [(Hc & Hl & H) | (Hc & Hl & H)]]; rewrite H; cbn [fst]; split.
  - discriminate.
  - intros [Hc _]. destruct (not_nested_excludes_nested _ _ Hc Hn).
  - discriminate.
  - intros [_ Hl']. lia.
  - auto.
  - reflexivity.
Qed.

(** X2: [validate] raises the nested-loop error exactly when some
    enclosing context is a LoopContext, whatever the nodes are. *)
Theorem validate_raises_nested_iff (st : state) (self : obj_ref) (nodes : list _BaseNode) :
  fst (ForEachContext.validate self nodes st) = Raises NestedLoopUnsupported
  <-> nested_in_loop st self.
Proof.
  destruct (validate_cases st self nodes)
    as [[Hn H] | [(Hc & Hl & H) | (Hc & Hl & H)]]; rewrite H; cbn [fst]; split.
  - auto.
  - reflexivity.
  - discriminate.
  - intros Hn. destruct (not_nested_excludes_nested _ _ Hc Hn).
  - discriminate.
  - intros Hn. destruct (not_nested_excludes_nested _ _ Hc Hn).
Qed.

(** X3: [validate] raises the multiplicity error exactly when no enclosing
    context is a LoopContext and the block declares more than one node. *)
Theorem validate_raises_multiple_iff (st : state) (self : obj_ref) (nodes : list _BaseNode) :
  fst (ForEachContext.validate self nodes st) = Raises MultipleNodesUnsupported
  <-> not_nested st self /\ 1 < len nodes.
Proof.
  destruct (validate_cases st self nodes)
    as [[Hn H] | [(Hc & Hl & H) | (Hc & Hl & H)]]; rewrite H; cbn [fst]; split.
  - discriminate.
  - intros [Hc _]. destruct (not_nested_excludes_nested _ _ Hc Hn).
  - auto.
  - reflexivity.
  - discriminate.
  - intros [_ Hl']. lia.
Qed.

(** X4: whatever [validate] raises is one of its two errors, both of
    class [NotImplementedError], and the state is as before the call. *)
Theorem validate_raises_only_NotImplementedError
    (st st' : state) (self : obj_ref) (nodes : list _BaseNode) (e : py_exn) :
  ForEachContext.validate self nodes st = (Raises e, st') ->
  (e = NestedLoopUnsupported \/ e = MultipleNodesUnsupported)
  /\ exn_class e = NotImplementedError
  /\ st' = st.
Proof.
  destruct (validate_cases st self nodes)
    as [[Hn H] | [(Hc & Hl & H) | (Hc & Hl & H)]]; rewrite H; intros [= <- <-];
    auto.
Qed.

Lemma validate_raises_only_NotImplementedError_witness :
  exn_class MultipleNodesUnsupported = NotImplementedError.
Proof.
  exact (proj1 (proj2 (validate_raises_only_NotImplementedError
                         demo_state demo_state 4 [node_M; node_N]
                         MultipleNodesUnsupported eq_refl))).
Defined.

(** ** ForEachContext.validate: what it does not look at *)

Lemma ancestor_chain_iff st self ps :
  ancestor_chain st self ps <-> ps = default [] (registry st !! self).
Proof.
  unfold ancestor_chain, dsl_context.ancestors, bind, get_state, ret.
  split; [intros [= H]; symmetry; exact H | intros ->; reflexivity].
Qed.

(** Two runs of [validate] on the same nodes end alike as soon as the two
    states agree on whether a LoopContext encloses the context. *)
Lemma validate_outcome_agree st1 st2 self (nodes : list _BaseNode) :
  (nested_in_loop st1 self <-> nested_in_loop st2 self) ->
  fst (ForEachContext.validate self nodes st1)
  = fst (ForEachContext.validate self nodes st2).
Proof.
  intros Hiff.
  destruct (nested_or_not_nested st1 self) as [H1 | H1].
  - rewrite (validate_nested _ _ nodes H1).
    rewrite (validate_nested _ _ nodes (proj1 Hiff H1)). reflexivity.
  - destruct (nested_or_not_nested st2 self) as [H2 | H2].
    + destruct (not_nested_excludes_nested _ _ H1 (proj2 Hiff H2)).
    + rewrite (validate_not_nested _ _ nodes H1).
      rewrite (validate_not_nested _ _ nodes H2). reflexivity.
Qed.

Lemma is_loop_context_same_class st1 st2 o :
  obj_mro <$> heap st1 !! o = obj_mro <$> heap st2 !! o ->
  is_loop_context st1 o -> is_loop_context st2 o.
Proof.
  intros Hcls. rewrite !is_loop_context_heap. intros (ob & Hob & Hin).
  rewrite Hob in Hcls. cbn in Hcls.
  destruct (heap st2 !! o) as [ob2 |]; [| discriminate].
  injection Hcls as Hm. exists ob2. split; [reflexivity |].
  rewrite <- Hm. exact Hin.
Qed.

(** X5: [validate] never looks inside [containing_nodes]: two node lists
    that are both longer than one, or both not, give the same run.  In
    particular a single node passes or fails as the empty body does,
    whether or not it uses the loop variable. *)
Theorem validate_ignores_node_contents
    (st : state) (self : obj_ref) (nodes1 nodes2 : list _BaseNode) :
  (1 < len nodes1 <-> 1 < len nodes2) ->
  ForEachContext.validate self nodes1 st = ForEachContext.validate self nodes2 st.
Proof.
  intros Hlen.
  destruct (validate_cases st self nodes1)
    as [[Hn H1] | [(Hc & Hl & H1) | (Hc & Hl & H1)]]; rewrite H1; symmetry.
  - apply validate_nested. exact Hn.
  - rewrite (validate_not_nested _ _ _ Hc).
    apply Hlen, Z.ltb_lt in Hl. rewrite Hl. reflexivity.
  - rewrite (validate_not_nested _ _ _ Hc).
    replace (1 <? len nodes2) with false; [reflexivity |].
    symmetry. apply Z.ltb_ge. destruct (Z.lt_ge_cases 1 (len nodes2)) as [H | H].
    + apply Hlen in H. lia.
    + exact H.
Qed.

Lemma validate_ignores_node_contents_witness :
  (1 < len [node_N] <-> 1 < len (@nil _BaseNode)) /\
  ForEachContext.validate 4 [node_N] demo_state
  = ForEachContext.validate 4 [] demo_state.
Proof.
  assert (H : 1 < len [node_N] <-> 1 < len (@nil _BaseNode))
    by (split; intros H; discriminate H).
  split; [exact H |].
  exact (validate_ignores_node_contents demo_state 4 [node_N] [] H).
Defined.

(** X6: the outcome of [validate] depends on the ancestor chain only as a
    set: with the same objects on the heap, two chains with the same
    members, in whatever order and with whatever repetitions, give the
    same outcome. *)
Theorem validate_chain_order_irrelevant
    (st1 st2 : state) (self : obj_ref) (nodes : list _BaseNode)
    (ps1 ps2 : list Z) :
  heap st1 = heap st2 ->
  ancestor_chain st1 self ps1 ->
  ancestor_chain st2 self ps2 ->
  (forall p, p ∈ ps1 <-> p ∈ ps2) ->
  fst (ForEachContext.validate self nodes st1)
  = fst (ForEachContext.validate self nodes st2).
Proof.
  intros Hheap Hps1 Hps2 Hmem. apply validate_outcome_agree.
  assert (Hcls : forall a b o, heap a = heap b ->
            is_loop_context a o -> is_loop_context b o).
  { intros a b o E. apply is_loop_context_same_class. rewrite E. reflexivity. }
  split; intros (qs & p & Hqs & Hin & Hp).
  - rewrite (ancestor_chain_unique _ _ _ _ Hqs Hps1) in Hin.
    exists ps2, p. split; [exact Hps2 |]. split; [apply Hmem; exact Hin |].
    apply (Hcls st1 st2); assumption.
  - rewrite (ancestor_chain_unique _ _ _ _ Hqs Hps2) in Hin.
    exists ps1, p. split; [exact Hps1 |]. split; [apply Hmem; exact Hin |].
    apply (Hcls st2 st1); [symmetry |]; assumption.
Qed.

Lemma validate_chain_order_irrelevant_witness :
  fst (ForEachContext.validate 4 [node_M] demo_state)
  = fst (ForEachContext.validate 4 [node_M] demo_state_repeated).
Proof.
  apply (validate_chain_order_irrelevant demo_state demo_state_repeated 4
           [node_M] [3] [3; 3; 3]); [reflexivity | reflexivity | reflexivity |].
  intros p. rewrite !elem_of_cons. rewrite !elem_of_nil. tauto.
Defined.

(** X7: [validate] never reads [wrapped_channel]: two states with the same
    registry whose objects have the same classes give the same outcome,
    whatever channels the contexts wrap. *)
Theorem validate_ignores_wrapped_channel
    (st1 st2 : state) (self : obj_ref) (nodes : list _BaseNode) :
  registry st1 = registry st2 ->
  (forall o, obj_mro <$> heap st1 !! o = obj_mro <$> heap st2 !! o) ->
  fst (ForEachContext.validate self nodes st1)
  = fst (ForEachContext.validate self nodes st2).
Proof.
  intros Hreg Hcls. apply validate_outcome_agree.
  split; intros (qs & p & Hqs & Hin & Hp); exists qs, p.
  - split; [| split; [exact Hin |]].
    + apply ancestor_chain_iff in Hqs. apply ancestor_chain_iff.
      rewrite <- Hreg. exact Hqs.
    + apply (is_loop_context_same_class st1 st2); [apply Hcls | exact Hp].
  - split; [| split; [exact Hin |]].
    + apply ancestor_chain_iff in Hqs. apply ancestor_chain_iff.
      rewrite Hreg. exact Hqs.
    + apply (is_loop_context_same_class st2 st1); [symmetry; apply Hcls | exact Hp].
Qed.

Lemma validate_ignores_wrapped_channel_witness :
  fst (ForEachContext.validate 2 [node_M] demo_state)
  = fst (ForEachContext.validate 2 [node_M] demo_state_wrapped).
Proof.
  apply (validate_ignores_wrapped_channel demo_state demo_state_wrapped 2 [node_M]).
  - reflexivity.
  - intros o. cbn [heap demo_state demo_state_wrapped].
    destruct (decide (o = 1)) as [-> | N1]; [reflexivity |].
    destruct (decide (o = 2)) as [-> | N2]; [reflexivity |].
    destruct (decide (o = 3)) as [-> | N3]; [reflexivity |].
    destruct (decide (o = 4)) as [-> | N4]; [reflexivity |].
    rewrite !lookup_insert_ne by congruence.
    rewrite !lookup_singleton_ne by congruence. reflexivity.
Defined.

(** ** Loopable.get_loop_var: errors, results and repeated calls *)

(** X8: an exception raised by the factory passes through
    [get_loop_var] unchanged, with the state the factory left: the method
    neither catches nor wraps it. *)
Theorem get_loop_var_propagates_factory_error
    (f : obj_ref -> M value) (ctx : obj_ref) (st st' : state) (e : py_exn) :
  f ctx st = (Raises e, st') ->
  (self <- Loopable.__init__ (VCallable f) ;; Loopable.get_loop_var self ctx) st
  = (Raises e, st').
Proof.
  intros Hf.
  rewrite (bind_returns _ _ _ _ _ (Loopable_init_callable f st)).
  unfold Loopable.get_loop_var. cbn [Loopable._loop_var_factory call].
  apply bind_raises. exact Hf.
Qed.

Lemma get_loop_var_propagates_factory_error_witness :
  (self <- Loopable.__init__ (VCallable failing_factory) ;;
   Loopable.get_loop_var self 1) demo_state
  = (Raises (Exn TypeError [Lit "factory failed"]), demo_state).
Proof.
  apply (get_loop_var_propagates_factory_error failing_factory 1
           demo_state demo_state (Exn TypeError [Lit "factory failed"])).
  reflexivity.
Defined.

(** X9: whatever [get_loop_var] returns is what the stored factory
    returned on this call, and it has the shape of a [LoopVar]: a channel,
    or a dictionary whose keys are strings and whose values are channels. *)
Theorem get_loop_var_returns_only_LoopVar
    (self : Loopable.t) (ctx : obj_ref) (st st' : state) (v : value) :
  Loopable.get_loop_var self ctx st = (Returns v, st') ->
  call (Loopable._loop_var_factory self) ctx st = (Returns v, st')
  /\ ((exists c, v = VChannel c)
      \/ (exists items, v = VDict items /\
            forall k x, (k, x) ∈ items ->
              (exists s, k = VStr s) /\ (exists c, x = VChannel c))).
Proof.
  unfold Loopable.get_loop_var, bind.
  destruct (call (Loopable._loop_var_factory self) ctx st) as [[r | e] st1];
    [| discriminate].
  destruct (typing_utils.is_compatible r LoopVar) eqn:Hok; cbn [negb];
    unfold raise, ret; intros [= <- <-].
  split; [reflexivity |]. apply is_compatible_LoopVar. exact Hok.
Qed.

Lemma get_loop_var_returns_only_LoopVar_witness :
  exists c, VChannel some_channel = VChannel c.
Proof.
  destruct (get_loop_var_returns_only_LoopVar
              {| Loopable._loop_var_factory :=
                   VCallable (fun _ => ret (VChannel some_channel)) |}
              1 demo_state demo_state (VChannel some_channel) eq_refl)
    as [_ [H | (items & H & _)]].
  - exact H.
  - discriminate H.
Defined.

(** X10: [get_loop_var] caches nothing.  Two calls in a row invoke the
    factory twice, the second from the state the first one left, and each
    call hands back the result of its own invocation. *)
Theorem get_loop_var_no_caching
    (f : obj_ref -> M value) (ctx : obj_ref) (st st1 st2 : state)
    (v1 v2 : value) :
  f ctx st = (Returns v1, st1) ->
  f ctx st1 = (Returns v2, st2) ->
  typing_utils.is_compatible v1 LoopVar = true ->
  typing_utils.is_compatible v2 LoopVar = true ->
  (self <- Loopable.__init__ (VCallable f) ;;
   a <- Loopable.get_loop_var self ctx ;;
   b <- Loopable.get_loop_var self ctx ;;
   ret (a, b)) st
  = (Returns (v1, v2), st2).
Proof.
  intros Hf1 Hf2 Hok1 Hok2.
  rewrite (bind_returns _ _ _ _ _ (Loopable_init_callable f st)).
  assert (Hrun : forall s s' v,
            f ctx s = (Returns v, s') ->
            typing_utils.is_compatible v LoopVar = true ->
            Loopable.get_loop_var
              {| Loopable._loop_var_factory := VCallable f |} ctx s
            = (Returns v, s')).
  { intros s s' v Hf Hok. unfold Loopable.get_loop_var.
    cbn [Loopable._loop_var_factory call].
    rewrite (bind_returns _ _ _ _ _ Hf). rewrite Hok. reflexivity. }
  rewrite (bind_returns _ _ _ _ _ (Hrun _ _ _ Hf1 Hok1)).
  rewrite (bind_returns _ _ _ _ _ (Hrun _ _ _ Hf2 Hok2)).
  reflexivity.
Qed.

Lemma get_loop_var_no_caching_witness :
  fst ((self <- Loopable.__init__ (VCallable counting_factory) ;;
        a <- Loopable.get_loop_var self 1 ;;
        b <- Loopable.get_loop_var self 1 ;;
        ret (a, b)) demo_state)
  = Returns (VChannel some_channel, VDict []).
Proof.
  rewrite (get_loop_var_no_caching counting_factory 1 demo_state
             (snd (counting_factory 1 demo_state))
             (snd (counting_factory 1 (snd (counting_factory 1 demo_state))))
             (VChannel some_channel) (VDict []));
    reflexivity.
Defined.

(** ** ForEachContext.__hash__: collisions *)

Lemma hash_small n : 0 <= n < _PyHASH_MODULUS -> hash n = n.
Proof.
  intros Hn. unfold hash. rewrite Z.abs_eq by lia.
  rewrite Z.mod_small by exact Hn.
  destruct (Z.eq_dec n 0) as [-> | Hnz]; [reflexivity |].
  rewrite Z.sgn_pos by lia. rewrite Z.mul_1_l.
  destruct (n =? -1) eqn:E; [apply Z.eqb_eq in E; lia | reflexivity].
Qed.

(** X11: two different contexts whose addresses lie below 2^61 - 1 have
    different hashes, and the hash of such a context is its address. *)
Theorem ForEachContext_hash_injective (a b : obj_ref) (st : state) :
  0 <= id a < _PyHASH_MODULUS ->
  0 <= id b < _PyHASH_MODULUS ->
  a <> b ->
  ForEachContext.__hash__ a st = (Returns (id a), st)
  /\ fst (ForEachContext.__hash__ a st) <> fst (ForEachContext.__hash__ b st).
Proof.
  intros Ha Hb Hab. unfold ForEachContext.__hash__, ret. cbn [fst].
  rewrite (hash_small _ Ha), (hash_small _ Hb). split; [reflexivity |].
  unfold id. intros [= E]. exact (Hab E).
Qed.

Lemma ForEachContext_hash_injective_witness :
  fst (ForEachContext.__hash__ 1 demo_state)
  <> fst (ForEachContext.__hash__ 2 demo_state).
Proof.
  apply (ForEachContext_hash_injective 1 2 demo_state).
  - split; [discriminate | reflexivity].
  - split; [discriminate | reflexivity].
  - discriminate.
Defined.
